(** * go-repository-pattern: the repository contract, its two
      implementations and the service, embedded in Rocq.

    Embedded here, from package [repository]: the [User] entity and the
    [UserRepository] interface, [MockUserRepository], and
    [PostgresUserRepository] (postgres_user_repository.go); from package
    [service]: [UserService] (user_service.go).

    Go passes Users around by pointer, so the embedding keeps a heap of
    User objects and the map of the in-memory repository stores pointers
    into it.  Every method is a function from the program state to an
    outcome: it returns (with the new state) or it panics. *)

From stdpp Require Import base gmap strings pretty.
From Stdlib Require Import ZArith.

Local Open Scope Z_scope.
Local Open Scope string_scope.

(** ** Go values *)

(** [type User struct { ID int; Name string; Email string }] *)
Record User := mkUser { ID : Z; Name : string; Email : string }.

(** The zero value of [User], what [var user User] holds. *)
Definition zeroUser : User := mkUser 0 "" "".

(** Heap addresses of User objects, and [*User]: nil or an address. *)
Abbreviation loc := positive.

Inductive pointer := NilPtr | Ref (l : loc).

(** Go's run-time panics that the embedded code can raise.  [Dangling]
    is not a Go panic: Go keeps every referenced object alive, so a
    pointer always has its object; states of the model in which an
    address has no object end there. *)
Inductive panic :=
| NilDereference      (* invalid memory address or nil pointer dereference *)
| NilMapAssignment    (* assignment to entry in nil map *)
| Dangling.

Inductive outcome (A : Type) :=
| Returns (a : A)
| Panics (p : panic).
Arguments Returns {A} a.
Arguments Panics {A} p.

(** Sequencing: a panic aborts what follows. *)
#[global] Instance outcome_bind : MBind outcome := λ A B k o,
  match o with
  | Returns a => k a
  | Panics p => Panics p
  end.

(** ** Errors

    An [error] is an interface value: nil, or a pointer to an error
    object.  Error objects have an identity (their address): two calls of
    [errors.New] with the same text give two errors that are not [==].
    Package-level sentinels such as [sql.ErrNoRows] live at a static
    address, errors made at run time at a dynamic one. *)

Inductive eaddr :=
| Static (name : string)
| Dyn (n : positive).

Inductive error_value :=
| errorString (a : eaddr) (s : string)                      (* *errors.errorString, from errors.New *)
| wrapError (a : eaddr) (msg : string) (err : error_value)  (* *fmt.wrapError, from fmt.Errorf with %w *)
| driverError (a : eaddr) (msg : string).                   (* any other error type, without Unwrap or Is *)

Abbreviation error := (option error_value).

#[global] Instance eaddr_eq_dec : EqDecision eaddr.
Proof. solve_decision. Defined.

(** The [Error()] method. *)
Definition Error (e : error_value) : string :=
  match e with
  | errorString _ s => s
  | wrapError _ msg _ => msg
  | driverError _ msg => msg
  end.

(** The dynamic type of an error value. *)
Inductive error_type := T_errorString | T_wrapError | T_driverError.

#[global] Instance error_type_eq_dec : EqDecision error_type.
Proof. solve_decision. Defined.

Definition type_of (e : error_value) : error_type :=
  match e with
  | errorString _ _ => T_errorString
  | wrapError _ _ _ => T_wrapError
  | driverError _ _ => T_driverError
  end.

Definition addr_of (e : error_value) : eaddr :=
  match e with
  | errorString a _ => a
  | wrapError a _ _ => a
  | driverError a _ => a
  end.

(** [e1 == e2] on non-nil errors: same dynamic type and same pointer. *)
Definition same_error (e1 e2 : error_value) : bool :=
  bool_decide (type_of e1 = type_of e2) && bool_decide (addr_of e1 = addr_of e2).

(** [errors.Is(err, target)]: walk the Unwrap chain of [err] comparing
    with [==]. *)
Fixpoint is_ (err target : error_value) : bool :=
  same_error err target ||
  match err with
  | wrapError _ _ inner => is_ inner target
  | _ => false
  end.

Definition errors_Is (err target : error) : bool :=
  match err, target with
  | Some e, Some t => is_ e t
  | None, None => true
  | _, _ => false
  end.

(** [sql.ErrNoRows = errors.New("sql: no rows in result set")]. *)
Definition ErrNoRows : error_value :=
  errorString (Static "sql.ErrNoRows") "sql: no rows in result set".

(** ** Program state

    The heap of User objects, the counter from which run-time error
    objects take their address, and the receiver's struct (the receiver
    of a method is taken to be a non-nil pointer to it). *)
Record state (R : Type) := mkState {
  heap : gmap loc User;
  next_err : positive;
  this : R
}.
Arguments mkState {R} heap next_err this.
Arguments heap {R} s.
Arguments next_err {R} s.
Arguments this {R} s.

Definition set_this {R} (σ : state R) (r : R) : state R :=
  mkState (heap σ) (next_err σ) r.

Definition set_heap {R} (σ : state R) (h : gmap loc User) : state R :=
  mkState h (next_err σ) (this σ).

(** [errors.New(text)]: a new error object at a new address. *)
Definition errors_New {R} (text : string) (σ : state R) : error_value * state R :=
  (errorString (Dyn (next_err σ)) text,
   mkState (heap σ) (Pos.succ (next_err σ)) (this σ)).

(** Reading through a [*User]. *)
Definition load {R} (p : pointer) (σ : state R) : outcome User :=
  match p with
  | NilPtr => Panics NilDereference
  | Ref l =>
      match heap σ !! l with
      | Some u => Returns u
      | None => Panics Dangling
      end
  end.

(** A new User object (a local whose address escapes). *)
Definition new_User {R} (σ : state R) : loc * state R :=
  let l := fresh (dom (heap σ)) in
  (l, set_heap σ (<[l := zeroUser]> (heap σ))).

(** ** The repository contract

    The interface [UserRepository] has two methods: [FindUserByID] takes
    an int and returns a pointer to a User and an error, [SaveUser] takes
    a pointer to a User and returns an error.  An interface value is nil
    or the method table of an implementation; [Σ] is the program state the
    implementation runs on. *)
Record UserRepository (Σ : Type) := mkUserRepository {
  FindUserByID : Z -> Σ -> outcome ((pointer * error) * Σ);
  SaveUser : pointer -> Σ -> outcome (error * Σ)
}.
Arguments mkUserRepository {Σ} _ _.
Arguments FindUserByID {Σ} _ _ _.
Arguments SaveUser {Σ} _ _ _.

(** ** The in-memory repository: [MockUserRepository] *)
Module Mock.

(** [type MockUserRepository struct { Users map[int]*User; Err error }].
    A Go map is nil or a table. *)
Record MockUserRepository := mkMock {
  Users : option (gmap Z pointer);
  Err : error
}.

(** [v, ok := m[k]]: on a nil map, and on a missing key, the zero value
    and false. *)
Definition index (m : option (gmap Z pointer)) (k : Z) : pointer * bool :=
  match m with
  | None => (NilPtr, false)
  | Some t =>
      match t !! k with
      | Some v => (v, true)
      | None => (NilPtr, false)
      end
  end.

(** [m[k] = v]: panics on a nil map. *)
Definition assign (m : option (gmap Z pointer)) (k : Z) (v : pointer)
  : outcome (option (gmap Z pointer)) :=
  match m with
  | None => Panics NilMapAssignment
  | Some t => Returns (Some (<[k := v]> t))
  end.

Abbreviation st := (state MockUserRepository).

Definition FindUserByID (id : Z) (σ : st) : outcome ((pointer * error) * st) :=
  let m := this σ in
  if bool_decide (Err m ≠ None) then
    Returns ((NilPtr, Err m), σ)
  else
    let '(user, exists_) := index (Users m) id in
    if negb exists_ then
      let '(e, σ') := errors_New "user not found" σ in
      Returns ((NilPtr, Some e), σ')
    else
      Returns ((user, None), σ).

Definition SaveUser (user : pointer) (σ : st) : outcome (error * st) :=
  let m := this σ in
  if bool_decide (Err m ≠ None) then
    Returns (Err m, σ)
  else
    u ← load user σ;
    users' ← assign (Users m) (ID u) user;
    Returns (None, set_this σ (mkMock users' (Err m))).

(** [MockUserRepository] implements [UserRepository]. *)
Definition as_UserRepository : UserRepository st :=
  mkUserRepository FindUserByID SaveUser.

End Mock.

(** ** The relational repository (postgres_user_repository.go) *)

(** The store behind [*sql.DB] is outside the repository.  It is taken
    as a parameter: a connection state and, for the two call shapes of
    the source, what [DB.QueryRow(query, args...).Scan(dest...)] does to
    it and gives back. *)
Inductive sqlval := SqlInt (z : Z) | SqlText (s : string).

(** What [Row.Scan] does: it fails before writing its destinations, or it
    writes them and returns the error (nil or not) of closing the rows. *)
Inductive scan (A : Type) :=
| Scanned (v : A) (close_err : error)
| ScanFailed (e : error_value).
Arguments Scanned {A} v close_err.
Arguments ScanFailed {A} e.

Record SQLStore := mkSQLStore {
  conn : Type;
  (* QueryRow(query, args...).Scan(&int) *)
  QueryRow_Scan1 : conn -> string -> list sqlval -> conn * scan Z;
  (* QueryRow(query, args...).Scan(&int, &string, &string) *)
  QueryRow_Scan3 : conn -> string -> list sqlval -> conn * scan (Z * string * string)
}.

Module Postgres.
Section WithStore.
Context (S : SQLStore).

(** [type PostgresUserRepository struct { DB *sql.DB }] *)
Record PostgresUserRepository := mkPostgres {
  DB : option (conn S)
}.

Abbreviation st := (state PostgresUserRepository).

Definition NewPostgresUserRepository (db : option (conn S)) : PostgresUserRepository :=
  mkPostgres db.

(** Calling a method of [*sql.DB] through a nil pointer panics. *)
Definition deref_DB (db : option (conn S)) : outcome (conn S) :=
  match db with
  | Some c => Returns c
  | None => Panics NilDereference
  end.

Definition select_query : string :=
  "SELECT id, name, email FROM users WHERE id = $1".

Definition insert_query : string := "
    INSERT INTO users (name, email) 
    VALUES ($1, $2) 
    RETURNING id".

Definition FindUserByID (id : Z) (σ : st) : outcome ((pointer * error) * st) :=
  let '(l, σ1) := new_User σ in                                (* var user User *)
  db ← deref_DB (DB (this σ1));
  let '(db', row) := QueryRow_Scan3 S db select_query [SqlInt id] in
  let σ2 := set_this σ1 (mkPostgres (Some db')) in
  let '(σ3, err) :=
    match row with
    | Scanned (i, n, e) close_err =>
        (set_heap σ2 (<[l := mkUser i n e]> (heap σ2)), close_err)
    | ScanFailed e => (σ2, Some e)
    end in
  if bool_decide (err ≠ None) then
    if errors_Is err (Some ErrNoRows) then
      let '(e, σ4) := errors_New "user not found" σ3 in
      Returns ((NilPtr, Some e), σ4)
    else
      Returns ((NilPtr, err), σ3)
  else
    Returns ((Ref l, None), σ3).

(** [&user.ID] after [user.Name] has been read: [user] is not nil. *)
Definition store_ID (user : pointer) (v : Z) (σ : st) : st :=
  match user with
  | Ref l => set_heap σ (alter (λ u, mkUser v (Name u) (Email u)) l (heap σ))
  | NilPtr => σ
  end.

Definition SaveUser (user : pointer) (σ : st) : outcome (error * st) :=
  u ← load user σ;                                             (* user.Name, user.Email *)
  db ← deref_DB (DB (this σ));
  let '(db', row) :=
    QueryRow_Scan1 S db insert_query [SqlText (Name u); SqlText (Email u)] in
  let σ1 := set_this σ (mkPostgres (Some db')) in
  let '(σ2, err) :=
    match row with
    | Scanned v close_err => (store_ID user v σ1, close_err)
    | ScanFailed e => (σ1, Some e)
    end in
  if bool_decide (err ≠ None) then
    Returns (err, σ2)
  else
    Returns (None, σ2).

(** [PostgresUserRepository] implements [UserRepository]. *)
Definition as_UserRepository : UserRepository st :=
  mkUserRepository FindUserByID SaveUser.

End WithStore.

Abbreviation st S := (state (PostgresUserRepository S)).

End Postgres.

(** ** The service (user_service.go) *)
Module Service.
Section WithState.
Context {Σ : Type}.

(** [type UserService struct { Repo repository.UserRepository }] *)
Record UserService := mkService {
  Repo : option (UserRepository Σ)
}.

(** Calling a method on a nil interface value panics. *)
Definition GetUser (s : UserService) (id : Z) (σ : Σ) : outcome ((pointer * error) * Σ) :=
  match Repo s with
  | Some r => FindUserByID r id σ
  | None => Panics NilDereference
  end.

Definition CreateUser (s : UserService) (user : pointer) (σ : Σ) : outcome (error * Σ) :=
  match Repo s with
  | Some r => SaveUser r user σ
  | None => Panics NilDereference
  end.

End WithState.
Arguments UserService Σ : clear implicits.
End Service.

(** ** A reference store

    Modelled from the spec: the relational store itself is an external
    collaborator, and its schema is not in the repository.  This store
    follows the spec's description of it: a users table, a single-row
    select by id, and an insert returning a store-generated identifier
    (here a serial counter).  A closed connection fails every query.
    It is used to run the relational repository on concrete inputs. *)
Module SerialStore.

Record db := mkDb {
  rows : list User;
  serial : Z;
  closed : bool
}.

(** database/sql's [errDBClosed]. *)
Definition errDBClosed : error_value :=
  errorString (Static "sql.errDBClosed") "sql: database is closed".

(** The driver's answer to a statement it does not know. *)
Definition errSyntax : error_value :=
  driverError (Static "pq.syntax_error") "pq: syntax error".

Definition scan1 (c : db) (query : string) (args : list sqlval) : db * scan Z :=
  if closed c then (c, ScanFailed errDBClosed)
  else
    match args with
    | [SqlText name; SqlText email] =>
        if bool_decide (query = Postgres.insert_query) then
          (mkDb (rows c ++ [mkUser (serial c) name email]) (serial c + 1) false,
           Scanned (serial c) None)
        else (c, ScanFailed errSyntax)
    | _ => (c, ScanFailed errSyntax)
    end.

Definition scan3 (c : db) (query : string) (args : list sqlval)
  : db * scan (Z * string * string) :=
  if closed c then (c, ScanFailed errDBClosed)
  else
    match args with
    | [SqlInt id] =>
        if bool_decide (query = Postgres.select_query) then
          match list_find (λ u, ID u = id) (rows c) with
          | Some (_, u) => (c, Scanned (ID u, Name u, Email u) None)
          | None => (c, ScanFailed ErrNoRows)
          end
        else (c, ScanFailed errSyntax)
    | _ => (c, ScanFailed errSyntax)
    end.

Definition store : SQLStore := mkSQLStore db scan1 scan3.

End SerialStore.

(** ** The program (main.go)

    [sql.Open] and [DB.Close] belong to database/sql and are parameters,
    like the store.  The program starts on an empty heap.  It ends by
    returning from [main], after the deferred [db.Close()] has run; or in
    [log.Fatal], which logs the error and exits at once, without running
    deferred calls; or in a panic. *)
Module Main.
Section WithStore.
Context (S : SQLStore).
Context (sql_Open : string → string → conn S + error_value).
Context (Close : conn S → conn S).

Inductive result :=
| Returned (out : list string) (db : conn S)
| Fatal (out : list string) (e : error_value) (db : option (conn S))
| Panicked (p : panic).

Definition newline : string := String (Ascii.ascii_of_nat 10) "".

Definition connStr : string := "user=youruser dbname=yourdb sslmode=disable".

(** [fmt.Printf("New user ID: %d\n", id)] *)
Definition Printf_new_user_id (id : Z) : string :=
  "New user ID: " +:+ pretty id +:+ newline.

(** [fmt.Printf("User found: %s, %s\n", name, email)] *)
Definition Printf_user_found (name email : string) : string :=
  "User found: " +:+ name +:+ ", " +:+ email +:+ newline.

(** [&repository.User{Name: "Alice", Email: "alice@example.com"}] *)
Definition new_Alice (σ : Postgres.st S) : pointer * Postgres.st S :=
  let '(l, σ1) := new_User σ in
  (Ref l, set_heap σ1 (<[l := mkUser 0 "Alice" "alice@example.com"]> (heap σ1))).

Definition main : result :=
  match sql_Open "postgres" connStr with
  | inr err => Fatal [] err None
  | inl db =>
      let userRepo := Postgres.NewPostgresUserRepository S (Some db) in
      let σ0 := mkState ∅ 1%positive userRepo in
      let '(newUser, σ1) := new_Alice σ0 in
      match Postgres.SaveUser S newUser σ1 with
      | Panics p => Panicked p
      | Returns (Some err, σ2) => Fatal [] err (Postgres.DB S (this σ2))
      | Returns (None, σ2) =>
          match load newUser σ2 with                               (* newUser.ID *)
          | Panics p => Panicked p
          | Returns nu =>
              let out1 := [Printf_new_user_id (ID nu)] in
              match Postgres.FindUserByID S (ID nu) σ2 with
              | Panics p => Panicked p
              | Returns ((_, Some err), σ3) => Fatal out1 err (Postgres.DB S (this σ3))
              | Returns ((user, None), σ3) =>
                  match load user σ3 with                          (* user.Name, user.Email *)
                  | Panics p => Panicked p
                  | Returns fu =>
                      let out2 := (out1 ++ [Printf_user_found (Name fu) (Email fu)])%list in
                      match Postgres.DB S (this σ3) with           (* deferred db.Close() *)
                      | Some c => Returned out2 (Close c)
                      | None => Panicked NilDereference
                      end
                  end
              end
          end
      end
  end.

End WithStore.
Arguments Returned {S} out db.
Arguments Fatal {S} out e db.
Arguments Panicked {S} p.
End Main.

(** * Properties *)

(** ** Vocabulary *)

(** The two error kinds of the contract are told apart by dynamic type
    and text: NotFound is what [errors.New("user not found")] makes. *)
Definition kind (e : error_value) : error_type * string := (type_of e, Error e).

Definition NotFound (e : error_value) : Prop :=
  kind e = (T_errorString, "user not found").

(** [id] is not a key of the map (a nil map has no keys). *)
Definition absent (m : option (gmap Z pointer)) (id : Z) : Prop :=
  match m with
  | Some t => t !! id = None
  | None => True
  end.

(** The error a finished scan reports. *)
Definition scan_error {A} (r : scan A) : error :=
  match r with
  | Scanned _ close_err => close_err
  | ScanFailed e => Some e
  end.

(** The state in which the scan of the relational [FindUserByID] leaves
    the program: the local [user] allocated, and filled if the scan wrote
    its destinations. *)
Definition after_select {S : SQLStore} (σ : Postgres.st S) (c' : conn S)
    (row : scan (Z * string * string)) : Postgres.st S :=
  let l := fresh (dom (heap σ)) in
  let h := <[l := zeroUser]> (heap σ) in
  mkState
    match row with
    | Scanned (i, n, e) _ => <[l := mkUser i n e]> h
    | ScanFailed _ => h
    end
    (next_err σ) (Postgres.mkPostgres S (Some c')).

(** Every stored User sits under its own id. *)
Definition keyed_by_id (σ : Mock.st) : Prop :=
  ∀ t k l, Mock.Users (this σ) = Some t → t !! k = Some (Ref l) →
    ∃ u, heap σ !! l = Some u ∧ ID u = k.

(** No two entries of the map hold Users with the same id. *)
Definition unique_ids (σ : Mock.st) : Prop :=
  ∀ t k1 k2 l1 l2 u1 u2, Mock.Users (this σ) = Some t →
    t !! k1 = Some (Ref l1) → t !! k2 = Some (Ref l2) →
    heap σ !! l1 = Some u1 → heap σ !! l2 = Some u2 →
    ID u1 = ID u2 → k1 = k2.

(** No User stored under a key other than [id] carries the id [id]. *)
Definition id_free_elsewhere (σ : Mock.st) (id : Z) : Prop :=
  ∀ t k l u, Mock.Users (this σ) = Some t → t !! k = Some (Ref l) →
    heap σ !! l = Some u → ID u = id → k = id.

(** No entry of the map holds a nil pointer. *)
Definition no_nil_values (σ : Mock.st) : Prop :=
  ∀ t k, Mock.Users (this σ) = Some t → t !! k ≠ Some NilPtr.

(** ** Concrete data of the repository's tests *)
Module Fixtures.

Definition john : User := mkUser 1 "John Doe" "john.doe@example.com".
Definition jane : User := mkUser 2 "Jane Doe" "jane.doe@example.com".
Definition alice : User := mkUser 0 "Alice" "alice@example.com".

(** TestGetUser: the map holds John under 1. *)
Definition get_state : Mock.st :=
  mkState {[ 1%positive := john ]} 1
          (Mock.mkMock (Some {[ 1 := Ref 1 ]}) None).

(** TestCreateUser: an empty map, and Jane about to be saved. *)
Definition create_state : Mock.st :=
  mkState {[ 1%positive := jane ]} 1 (Mock.mkMock (Some ∅) None).

(** The zero value of the repository: a nil map, no error. *)
Definition zero_state : Mock.st :=
  mkState {[ 1%positive := jane ]} 1 (Mock.mkMock None None).

Definition boom : error_value := errorString (Static "test.boom") "boom".

(** A repository with an injected error. *)
Definition failing_state : Mock.st :=
  mkState {[ 1%positive := john ]} 1
          (Mock.mkMock (Some {[ 1 := Ref 1 ]}) (Some boom)).

(** main.go: Alice, not yet persisted, and an open empty store. *)
Definition main_state : Postgres.st SerialStore.store :=
  mkState {[ 1%positive := alice ]} 1
          (Postgres.mkPostgres SerialStore.store
             (Some (SerialStore.mkDb [] 1 false))).

Definition closed_state : Postgres.st SerialStore.store :=
  mkState {[ 1%positive := alice ]} 1
          (Postgres.mkPostgres SerialStore.store
             (Some (SerialStore.mkDb [] 1 true))).

(** main.go after its [SaveUser]: Alice persisted under the id 1. *)
Definition persisted_state : Postgres.st SerialStore.store :=
  mkState {[ 1%positive := mkUser 1 "Alice" "alice@example.com" ]} 1
          (Postgres.mkPostgres SerialStore.store
             (Some (SerialStore.mkDb [mkUser 1 "Alice" "alice@example.com"] 2 false))).

(** The same after Alice has been passed to [SaveUser] once more. *)
Definition resaved_state : Postgres.st SerialStore.store :=
  mkState {[ 1%positive := mkUser 2 "Alice" "alice@example.com" ]} 1
          (Postgres.mkPostgres SerialStore.store
             (Some (SerialStore.mkDb [mkUser 1 "Alice" "alice@example.com";
                                      mkUser 2 "Alice" "alice@example.com"] 3 false))).

(** John stored under 1, Jane on the heap and not stored yet. *)
Definition two_users_state : Mock.st :=
  mkState {[ 1%positive := john; 2%positive := jane ]} 1
          (Mock.mkMock (Some {[ 1 := Ref 1 ]}) None).

(** Two Users carrying the same id, and an empty map. *)
Definition same_id_state : Mock.st :=
  mkState {[ 1%positive := jane;
             2%positive := mkUser 2 "Janet Doe" "janet.doe@example.com" ]} 1
          (Mock.mkMock (Some ∅) None).

(** An [sql.Open] that succeeds on an empty store, one that fails, and a
    [Close] for the reference store. *)
Definition open_empty (driver dsn : string) : SerialStore.db + error_value :=
  inl (SerialStore.mkDb [] 1 false).

Definition open_fails (driver dsn : string) : SerialStore.db + error_value :=
  inr (driverError (Static "sql.unknown_driver") "sql: unknown driver").

Definition open_closed (driver dsn : string) : SerialStore.db + error_value :=
  inl (SerialStore.mkDb [] 1 true).

Definition close (c : SerialStore.db) : SerialStore.db :=
  SerialStore.mkDb (SerialStore.rows c) (SerialStore.serial c) true.

(** A map whose only entry is filed under a key that is not the User's
    id (Jane, id 2, under key 1), and a second User with the id 2 on the
    heap. *)
Definition janet : User := mkUser 2 "Janet Doe" "janet.doe@example.com".

Definition misfiled_state : Mock.st :=
  mkState {[ 1%positive := jane; 2%positive := janet ]} 1
          (Mock.mkMock (Some {[ 1 := Ref 1 ]}) None).

(** A relational repository built on a nil [*sql.DB]. *)
Definition no_db_state : Postgres.st SerialStore.store :=
  mkState {[ 1%positive := alice ]} 1
          (Postgres.NewPostgresUserRepository SerialStore.store None).

(** A store that accepts every insert under the id 7 and finds no row. *)
Definition forgetful_store : SQLStore :=
  mkSQLStore unit
    (λ _ _ _, (tt, Scanned 7 None))
    (λ _ _ _, (tt, ScanFailed ErrNoRows)).

Definition open_unit (driver dsn : string) : unit + error_value := inl tt.

End Fixtures.

(** ** The tests of the repository, run on the embedding *)

Example TestGetUser_existing :
  ∃ σ', Service.GetUser (Service.mkService (Some Mock.as_UserRepository)) 1 Fixtures.get_state
        = Returns ((Ref 1, None), σ')
        ∧ Name <$> heap σ' !! 1%positive = Some "John Doe".
Proof. eexists. split; reflexivity. Qed.

Example TestGetUser_missing :
  ∃ e σ', Service.GetUser (Service.mkService (Some Mock.as_UserRepository)) 2 Fixtures.get_state
          = Returns ((NilPtr, Some e), σ').
Proof. do 2 eexists. reflexivity. Qed.

Example TestCreateUser :
  ∃ σ1 σ2,
    Service.CreateUser (Service.mkService (Some Mock.as_UserRepository)) (Ref 1) Fixtures.create_state
      = Returns (None, σ1)
    ∧ Mock.FindUserByID 2 σ1 = Returns ((Ref 1, None), σ2)
    ∧ Name <$> heap σ2 !! 1%positive = Some "Jane Doe".
Proof. do 2 eexists. split; [|split]; reflexivity. Qed.

Example main_go :
  ∃ σ1 σ2 p,
    Postgres.SaveUser SerialStore.store (Ref 1) Fixtures.main_state = Returns (None, σ1)
    ∧ ID <$> heap σ1 !! 1%positive = Some 1
    ∧ Postgres.FindUserByID SerialStore.store 1 σ1 = Returns ((Ref p, None), σ2)
    ∧ heap σ2 !! p = Some (mkUser 1 "Alice" "alice@example.com").
Proof. do 3 eexists. repeat split; vm_compute; reflexivity. Qed.

(** An injected error comes back from the service for any id, whatever
    the map holds. *)
Example injected_error_scenario :
  Service.GetUser (Service.mkService (Some Mock.as_UserRepository)) 1 Fixtures.failing_state
    = Returns ((NilPtr, Some Fixtures.boom), Fixtures.failing_state)
  ∧ Service.GetUser (Service.mkService (Some Mock.as_UserRepository)) 2 Fixtures.failing_state
    = Returns ((NilPtr, Some Fixtures.boom), Fixtures.failing_state).
Proof. split; reflexivity. Qed.

(** ** The in-memory repository *)

Section MockFacts.
Implicit Types (σ : Mock.st) (t : gmap Z pointer) (l : loc) (u : User).

(** Without an injected error, a lookup is decided by the map alone. *)
Lemma Mock_find_no_err σ id :
  Mock.Err (this σ) = None →
  Mock.FindUserByID id σ =
    match Mock.index (Mock.Users (this σ)) id with
    | (user, true) => Returns ((user, None), σ)
    | (_, false) =>
        Returns ((NilPtr, Some (errorString (Dyn (next_err σ)) "user not found")),
                 mkState (heap σ) (Pos.succ (next_err σ)) (this σ))
    end.
Proof.
  intros HE. unfold Mock.FindUserByID. rewrite HE.
  rewrite bool_decide_eq_false_2 by congruence.
  destruct (Mock.index _ id) as [user []]; reflexivity.
Qed.

(** With an injected error, both methods stop at their first test. *)
Lemma Mock_find_err σ id e :
  Mock.Err (this σ) = Some e →
  Mock.FindUserByID id σ = Returns ((NilPtr, Some e), σ).
Proof.
  intros HE. unfold Mock.FindUserByID. rewrite HE.
  rewrite bool_decide_eq_true_2 by congruence. reflexivity.
Qed.

Lemma Mock_save_err σ user e :
  Mock.Err (this σ) = Some e →
  Mock.SaveUser user σ = Returns (Some e, σ).
Proof.
  intros HE. unfold Mock.SaveUser. rewrite HE.
  rewrite bool_decide_eq_true_2 by congruence. reflexivity.
Qed.

(** Saving into an initialised map. *)
Lemma Mock_save_no_err σ t l u :
  Mock.Err (this σ) = None →
  Mock.Users (this σ) = Some t →
  heap σ !! l = Some u →
  Mock.SaveUser (Ref l) σ =
    Returns (None, set_this σ (Mock.mkMock (Some (<[ID u := Ref l]> t)) None)).
Proof.
  intros HE HU Hl. unfold Mock.SaveUser. rewrite HE, HU.
  rewrite bool_decide_eq_false_2 by congruence.
  simpl. rewrite Hl. reflexivity.
Qed.

(** Saving into a nil map. *)
Lemma Mock_save_nil_map σ l u :
  Mock.Err (this σ) = None →
  Mock.Users (this σ) = None →
  heap σ !! l = Some u →
  Mock.SaveUser (Ref l) σ = Panics NilMapAssignment.
Proof.
  intros HE HU Hl. unfold Mock.SaveUser. rewrite HE, HU.
  rewrite bool_decide_eq_false_2 by congruence.
  simpl. rewrite Hl. reflexivity.
Qed.

Lemma NotFound_errors_New n : NotFound (errorString (Dyn n) "user not found").
Proof. reflexivity. Qed.

(** A lookup of a key the map does not have. *)
Lemma Mock_find_absent σ id :
  Mock.Err (this σ) = None →
  absent (Mock.Users (this σ)) id →
  ∃ e σ', Mock.FindUserByID id σ = Returns ((NilPtr, Some e), σ') ∧ NotFound e.
Proof.
  intros HE Habs. rewrite Mock_find_no_err by exact HE.
  unfold absent, Mock.index in *.
  destruct (Mock.Users (this σ)) as [t|]; [rewrite Habs|];
    eexists _, _; split; try reflexivity; apply NotFound_errors_New.
Qed.

End MockFacts.

(** C1, as the claim is written, at the zero value of the repository
    (no injected error, the map never initialised): saving Jane does not
    succeed, it panics on the assignment to a nil map, so there is no
    saved state in which to look her up. *)
Lemma save_then_find_fails_on_nil_map :
  Mock.Err (this Fixtures.zero_state) = None
  ∧ heap Fixtures.zero_state !! 1%positive = Some Fixtures.jane
  ∧ ¬ (∃ σ1 σ2,
         Mock.SaveUser (Ref 1) Fixtures.zero_state = Returns (None, σ1)
         ∧ Mock.FindUserByID (ID Fixtures.jane) σ1 = Returns ((Ref 1, None), σ2)
         ∧ heap σ2 !! 1%positive = Some Fixtures.jane).
Proof.
  split; [reflexivity|]. split; [reflexivity|].
  intros (σ1 & σ2 & Hsave & _). vm_compute in Hsave. discriminate Hsave.
Qed.

(** C1 (amended): for every User [u] (at address [l]) and every state of
    the in-memory repository with no injected error and an initialised
    map, [SaveUser(u)] and then [FindUserByID(u.ID)] both succeed, and the
    lookup returns the pointer that was saved, still holding [u]. *)
Theorem save_then_find (σ : Mock.st) (t : gmap Z pointer) (l : loc) (u : User) :
  Mock.Err (this σ) = None →
  Mock.Users (this σ) = Some t →
  heap σ !! l = Some u →
  ∃ σ1 σ2,
    Mock.SaveUser (Ref l) σ = Returns (None, σ1)
    ∧ Mock.FindUserByID (ID u) σ1 = Returns ((Ref l, None), σ2)
    ∧ heap σ2 !! l = Some u.
Proof.
  intros HE HU Hl.
  eexists _, _. split; [by eapply Mock_save_no_err|].
  rewrite Mock_find_no_err by reflexivity.
  simpl. rewrite lookup_insert_eq. split; [reflexivity | exact Hl].
Qed.

Lemma save_then_find_witness :
  ∃ σ1 σ2,
    Mock.SaveUser (Ref 1) Fixtures.create_state = Returns (None, σ1)
    ∧ Mock.FindUserByID 2 σ1 = Returns ((Ref 1, None), σ2)
    ∧ heap σ2 !! 1%positive = Some Fixtures.jane.
Proof.
  apply (save_then_find Fixtures.create_state ∅ 1%positive Fixtures.jane);
    reflexivity.
Defined.

(** C3: when an error [E] is injected, [FindUserByID] returns [E] itself
    (and a nil User) for every id, whatever the map holds, and [SaveUser]
    returns [E] for every user; both leave the whole state, the map
    included, as it was. *)
Theorem injected_error_wins
    (h : gmap loc User) (n : positive) (users : option (gmap Z pointer))
    (E : error_value) :
  let σ := mkState h n (Mock.mkMock users (Some E)) in
  (∀ id, Mock.FindUserByID id σ = Returns ((NilPtr, Some E), σ))
  ∧ (∀ user, Mock.SaveUser user σ = Returns (Some E, σ)).
Proof.
  intros σ. split.
  - intros id. by apply Mock_find_err.
  - intros user. by apply Mock_save_err.
Qed.

(** C4: with no injected error, for every id that is not a key of the map
    (a nil map has none), [FindUserByID] returns a nil User together with
    a NotFound error. *)
Theorem find_absent (σ : Mock.st) (id : Z) :
  Mock.Err (this σ) = None →
  absent (Mock.Users (this σ)) id →
  ∃ e σ', Mock.FindUserByID id σ = Returns ((NilPtr, Some e), σ') ∧ NotFound e.
Proof. apply Mock_find_absent. Qed.

Lemma find_absent_witness :
  ∃ e σ', Mock.FindUserByID 2 Fixtures.get_state = Returns ((NilPtr, Some e), σ')
          ∧ NotFound e.
Proof.
  apply (find_absent Fixtures.get_state 2); reflexivity.
Defined.

(** C8, as the claim is written, at the zero value of the repository: with
    no injected error and the map never initialised, [SaveUser] does not
    succeed for John either: it panics instead of inserting an entry. *)
Lemma save_frame_fails_on_nil_map :
  let σ := mkState {[ 7%positive := Fixtures.john ]} 1 (Mock.mkMock None None) in
  Mock.Err (this σ) = None
  ∧ heap σ !! 7%positive = Some Fixtures.john
  ∧ ¬ (∃ σ', Mock.SaveUser (Ref 7) σ = Returns (None, σ')).
Proof.
  intros σ. split; [reflexivity|]. split; [reflexivity|].
  intros (σ' & Hsave). vm_compute in Hsave. discriminate Hsave.
Qed.

(** C8 (amended): for every User [u] (at address [l]) and every state of
    the in-memory repository with no injected error and an initialised
    map [t], [SaveUser(u)] succeeds; afterwards the map is [t] with key
    [u.ID] bound to [u]'s pointer, every other key is as in [t], the
    injected-error field is still nil, and the heap of Users is untouched:
    [u] itself, its id included, is not modified. *)
Theorem save_frame (σ : Mock.st) (t : gmap Z pointer) (l : loc) (u : User) :
  Mock.Err (this σ) = None →
  Mock.Users (this σ) = Some t →
  heap σ !! l = Some u →
  ∃ σ' t',
    Mock.SaveUser (Ref l) σ = Returns (None, σ')
    ∧ Mock.Users (this σ') = Some t'
    ∧ t' = <[ID u := Ref l]> t
    ∧ t' !! ID u = Some (Ref l)
    ∧ (∀ k, k ≠ ID u → t' !! k = t !! k)
    ∧ Mock.Err (this σ') = None
    ∧ heap σ' = heap σ
    ∧ heap σ' !! l = Some u.
Proof.
  intros HE HU Hl.
  eexists _, _. split; [by eapply Mock_save_no_err|].
  simpl. repeat split; try done.
  - apply lookup_insert_eq.
  - intros k Hk. by apply lookup_insert_ne.
Qed.

Lemma save_frame_witness :
  ∃ σ' t',
    Mock.SaveUser (Ref 1) Fixtures.create_state = Returns (None, σ')
    ∧ Mock.Users (this σ') = Some t'
    ∧ t' = <[2 := Ref 1]> ∅
    ∧ t' !! 2 = Some (Ref 1)
    ∧ (∀ k, k ≠ 2 → t' !! k = (∅ : gmap Z pointer) !! k)
    ∧ Mock.Err (this σ') = None
    ∧ heap σ' = heap Fixtures.create_state
    ∧ heap σ' !! 1%positive = Some Fixtures.jane.
Proof.
  apply (save_frame Fixtures.create_state ∅ 1%positive Fixtures.jane);
    reflexivity.
Defined.

(** C9: [FindUserByID] is read-only on the in-memory repository: for every
    id and every state it returns, and the repository's struct (its map
    and its injected-error field) and the heap of Users are afterwards
    exactly as before, whether the lookup gave a User, NotFound or the
    injected error. *)
Theorem find_read_only (σ : Mock.st) (id : Z) :
  ∃ r σ',
    Mock.FindUserByID id σ = Returns (r, σ')
    ∧ Mock.Users (this σ') = Mock.Users (this σ)
    ∧ Mock.Err (this σ') = Mock.Err (this σ)
    ∧ heap σ' = heap σ.
Proof.
  destruct (Mock.Err (this σ)) as [e|] eqn:HE.
  - rewrite (Mock_find_err σ id e HE). rewrite <- HE. by eexists _, _.
  - rewrite (Mock_find_no_err σ id HE).
    destruct (Mock.index _ id) as [user []]; by eexists _, _.
Qed.

(** C10: when the map is nil and no error is injected, [SaveUser] panics
    for every argument, and for every User the panic is the one of the
    assignment to an entry of a nil map; [FindUserByID] on the same state
    returns, for every id, a nil User and NotFound. *)
Theorem nil_map_save_panics (σ : Mock.st) :
  Mock.Users (this σ) = None →
  Mock.Err (this σ) = None →
  (∀ user, ∃ p, Mock.SaveUser user σ = Panics p)
  ∧ (∀ l u, heap σ !! l = Some u → Mock.SaveUser (Ref l) σ = Panics NilMapAssignment)
  ∧ (∀ id, ∃ e σ', Mock.FindUserByID id σ = Returns ((NilPtr, Some e), σ') ∧ NotFound e).
Proof.
  intros HU HE. split; [|split].
  - intros user. unfold Mock.SaveUser. rewrite HE, HU.
    rewrite bool_decide_eq_false_2 by congruence.
    destruct user as [|l]; simpl; [by eexists|].
    destruct (heap σ !! l); by eexists.
  - intros l u Hl. by apply (Mock_save_nil_map σ l u).
  - intros id. rewrite Mock_find_no_err by exact HE. rewrite HU. simpl.
    eexists _, _. split; [reflexivity | apply NotFound_errors_New].
Qed.

Lemma nil_map_save_panics_witness :
  Mock.SaveUser (Ref 1) Fixtures.zero_state = Panics NilMapAssignment
  ∧ ∃ e σ', Mock.FindUserByID 2 Fixtures.zero_state = Returns ((NilPtr, Some e), σ')
            ∧ NotFound e.
Proof.
  destruct (nil_map_save_panics Fixtures.zero_state eq_refl eq_refl)
    as (_ & Hsave & Hfind).
  split; [apply (Hsave 1%positive Fixtures.jane); reflexivity | apply Hfind].
Defined.

(** ** The service *)

(** C2: for every repository implementation [r] injected into the
    service, [GetUser] is [r]'s [FindUserByID] and [CreateUser] is [r]'s
    [SaveUser]: same result (or panic) and same final state, on every id,
    every user pointer and every state. *)
Theorem service_pass_through {Σ : Type} (r : UserRepository Σ) :
  let s := Service.mkService (Some r) in
  (∀ id σ, Service.GetUser s id σ = FindUserByID r id σ)
  ∧ (∀ user σ, Service.CreateUser s user σ = SaveUser r user σ).
Proof. split; reflexivity. Qed.

(** The same on the two implementations of the repository. *)
Corollary service_over_mock id user σ :
  let s := Service.mkService (Some Mock.as_UserRepository) in
  Service.GetUser s id σ = Mock.FindUserByID id σ
  ∧ Service.CreateUser s user σ = Mock.SaveUser user σ.
Proof. split; reflexivity. Qed.

Corollary service_over_postgres S id user σ :
  let s := Service.mkService (Some (Postgres.as_UserRepository S)) in
  Service.GetUser s id σ = Postgres.FindUserByID S id σ
  ∧ Service.CreateUser s user σ = Postgres.SaveUser S user σ.
Proof. split; reflexivity. Qed.

(** ** The relational repository *)

Section PostgresFacts.
Context (S : SQLStore).
Implicit Types (σ : Postgres.st S) (l : loc) (u : User).

Lemma alter_as_insert (h : gmap loc User) l u (f : User → User) :
  h !! l = Some u → alter f l h = <[l := f u]> h.
Proof.
  intros Hl. apply map_eq. intros k. rewrite lookup_alter, lookup_insert.
  destruct (decide (l = k)) as [<-|]; [by rewrite Hl | done].
Qed.

Lemma Postgres_find_unfold σ id c c' row :
  Postgres.DB S (this σ) = Some c →
  QueryRow_Scan3 S c Postgres.select_query [SqlInt id] = (c', row) →
  Postgres.FindUserByID S id σ =
    let σ3 := after_select σ c' row in
    match scan_error row with
    | Some e =>
        if is_ e ErrNoRows then
          Returns ((NilPtr, Some (errorString (Dyn (next_err σ)) "user not found")),
                   mkState (heap σ3) (Pos.succ (next_err σ)) (this σ3))
        else Returns ((NilPtr, Some e), σ3)
    | None => Returns ((Ref (fresh (dom (heap σ))), None), σ3)
    end.
Proof.
  intros HDB HQ. unfold Postgres.FindUserByID, after_select. simpl.
  rewrite HDB. simpl. rewrite HQ.
  destruct row as [[[i n] e] [ce|] | e]; simpl; try reflexivity;
    destruct (is_ _ ErrNoRows); reflexivity.
Qed.

Lemma Postgres_save_unfold σ l u c c' row :
  heap σ !! l = Some u →
  Postgres.DB S (this σ) = Some c →
  QueryRow_Scan1 S c Postgres.insert_query [SqlText (Name u); SqlText (Email u)]
    = (c', row) →
  Postgres.SaveUser S (Ref l) σ =
    Returns (scan_error row,
             mkState
               match row with
               | Scanned v _ => <[l := mkUser v (Name u) (Email u)]> (heap σ)
               | ScanFailed _ => heap σ
               end
               (next_err σ) (Postgres.mkPostgres S (Some c'))).
Proof.
  intros Hl HDB HQ. unfold Postgres.SaveUser. simpl.
  rewrite Hl. simpl. rewrite HDB. simpl. rewrite HQ.
  destruct row as [v [ce|] | e]; simpl; try reflexivity;
    unfold set_heap; simpl;
    by rewrite (alter_as_insert _ _ _ _ Hl).
Qed.

End PostgresFacts.

(** C5: when the row scan of the relational [FindUserByID] ends with an
    error that is [sql.ErrNoRows] (in the sense of [errors.Is]), the method
    returns a nil User and an error of the same kind, dynamic type and
    text, as the one the in-memory repository returns for an absent id;
    when the scan ends with any other error, the method returns a nil User
    and that very error. *)
Theorem not_found_parity (S : SQLStore) (σ : Postgres.st S) (id : Z)
    (c c' : conn S) (row : scan (Z * string * string)) (e : error_value)
    (σm : Mock.st) (idm : Z) :
  Postgres.DB S (this σ) = Some c →
  QueryRow_Scan3 S c Postgres.select_query [SqlInt id] = (c', row) →
  scan_error row = Some e →
  Mock.Err (this σm) = None →
  absent (Mock.Users (this σm)) idm →
  ∃ em σm',
    Mock.FindUserByID idm σm = Returns ((NilPtr, Some em), σm')
    ∧ NotFound em
    ∧ if errors_Is (Some e) (Some ErrNoRows) then
        ∃ e' σ', Postgres.FindUserByID S id σ = Returns ((NilPtr, Some e'), σ')
                 ∧ kind e' = kind em
      else
        ∃ σ', Postgres.FindUserByID S id σ = Returns ((NilPtr, Some e), σ').
Proof.
  intros HDB HQ Herr HE Habs.
  destruct (Mock_find_absent σm idm HE Habs) as (em & σm' & Hm & Hnf).
  exists em, σm'. split; [exact Hm|]. split; [exact Hnf|].
  rewrite (Postgres_find_unfold S σ id c c' row HDB HQ). simpl. rewrite Herr.
  destruct (is_ e ErrNoRows).
  - eexists _, _. split; [reflexivity|]. by rewrite Hnf.
  - by eexists.
Qed.

Lemma not_found_parity_witness :
  (∃ em σm',
     Mock.FindUserByID 2 Fixtures.get_state = Returns ((NilPtr, Some em), σm')
     ∧ NotFound em
     ∧ ∃ e' σ', Postgres.FindUserByID SerialStore.store 5 Fixtures.main_state
                  = Returns ((NilPtr, Some e'), σ')
                ∧ kind e' = kind em)
  ∧ (∃ em σm',
       Mock.FindUserByID 2 Fixtures.get_state = Returns ((NilPtr, Some em), σm')
       ∧ NotFound em
       ∧ ∃ σ', Postgres.FindUserByID SerialStore.store 5 Fixtures.closed_state
                 = Returns ((NilPtr, Some SerialStore.errDBClosed), σ')).
Proof.
  split.
  - exact (not_found_parity SerialStore.store Fixtures.main_state 5
             (SerialStore.mkDb [] 1 false) (SerialStore.mkDb [] 1 false)
             (ScanFailed ErrNoRows) ErrNoRows Fixtures.get_state 2
             eq_refl eq_refl eq_refl eq_refl eq_refl).
  - exact (not_found_parity SerialStore.store Fixtures.closed_state 5
             (SerialStore.mkDb [] 1 true) (SerialStore.mkDb [] 1 true)
             (ScanFailed SerialStore.errDBClosed) SerialStore.errDBClosed
             Fixtures.get_state 2
             eq_refl eq_refl eq_refl eq_refl eq_refl).
Defined.

(** C6: for every User passed to the relational [SaveUser], when the scan
    of the insert succeeds the method returns nil and the passed User's ID
    field holds the id the store returned, its other fields unchanged;
    when the scan ends with an error the method returns that very
    error. *)
Theorem save_writes_id_back (S : SQLStore) (σ : Postgres.st S) (l : loc) (u : User)
    (c c' : conn S) (row : scan Z) :
  heap σ !! l = Some u →
  Postgres.DB S (this σ) = Some c →
  QueryRow_Scan1 S c Postgres.insert_query [SqlText (Name u); SqlText (Email u)]
    = (c', row) →
  match scan_error row with
  | None =>
      ∃ v σ', row = Scanned v None
              ∧ Postgres.SaveUser S (Ref l) σ = Returns (None, σ')
              ∧ heap σ' !! l = Some (mkUser v (Name u) (Email u))
  | Some e =>
      ∃ σ', Postgres.SaveUser S (Ref l) σ = Returns (Some e, σ')
  end.
Proof.
  intros Hl HDB HQ.
  rewrite (Postgres_save_unfold S σ l u c c' row Hl HDB HQ).
  destruct row as [v [ce|] | e]; simpl.
  - by eexists.
  - eexists v, _. split; [reflexivity|]. split; [reflexivity|].
    simpl. apply lookup_insert_eq.
  - by eexists.
Qed.

Lemma save_writes_id_back_witness :
  (∃ v σ', Scanned 1 None = Scanned v None
           ∧ Postgres.SaveUser SerialStore.store (Ref 1) Fixtures.main_state
             = Returns (None, σ')
           ∧ heap σ' !! 1%positive = Some (mkUser v "Alice" "alice@example.com"))
  ∧ (∃ σ', Postgres.SaveUser SerialStore.store (Ref 1) Fixtures.closed_state
           = Returns (Some SerialStore.errDBClosed, σ')).
Proof.
  split.
  - exact (save_writes_id_back SerialStore.store Fixtures.main_state 1%positive
             Fixtures.alice (SerialStore.mkDb [] 1 false)
             (SerialStore.mkDb [mkUser 1 "Alice" "alice@example.com"] 2 false)
             (Scanned 1 None) eq_refl eq_refl eq_refl).
  - exact (save_writes_id_back SerialStore.store Fixtures.closed_state 1%positive
             Fixtures.alice (SerialStore.mkDb [] 1 true) (SerialStore.mkDb [] 1 true)
             (ScanFailed SerialStore.errDBClosed) eq_refl eq_refl eq_refl).
Defined.

(** ** Ids of persisted Users *)

Section IdFacts.
Implicit Types (l : loc) (u : User).

(** The two ways [SaveUser] of the in-memory repository returns. *)
Lemma Mock_save_inv (p : pointer) (σ σ' : Mock.st) (e : error) :
  Mock.SaveUser p σ = Returns (e, σ') →
  (e ≠ None ∧ σ' = σ)
  ∨ (∃ l u t, p = Ref l ∧ heap σ !! l = Some u
              ∧ Mock.Users (this σ) = Some t ∧ e = None
              ∧ σ' = set_this σ (Mock.mkMock (Some (<[ID u := Ref l]> t)) None)).
Proof.
  unfold Mock.SaveUser. case_bool_decide as HE.
  - intros [= <- <-]. by left.
  - rewrite HE.
    destruct p as [|l]; simpl; [discriminate|].
    destruct (heap σ !! l) as [u|] eqn:Hl; simpl; [|discriminate].
    destruct (Mock.Users (this σ)) as [t|] eqn:HU; simpl; [|discriminate].
    intros [= <- <-]. right. by exists l, u, t.
Qed.

Lemma Mock_save_keyed (p : pointer) (σ σ' : Mock.st) (e : error) :
  Mock.SaveUser p σ = Returns (e, σ') →
  heap σ' = heap σ ∧ (keyed_by_id σ → keyed_by_id σ').
Proof.
  intros [[_ ->] | (l & u & t & -> & Hl & HU & -> & ->)]%Mock_save_inv; [done|].
  split; [reflexivity|].
  intros Hkey t' k l' [= <-] Hk. simpl.
  destruct (decide (ID u = k)) as [<-|Hne].
  - rewrite lookup_insert_eq in Hk. injection Hk as <-. by exists u.
  - rewrite lookup_insert_ne in Hk by done. by eapply Hkey.
Qed.

Lemma keyed_unique (σ : Mock.st) : keyed_by_id σ → unique_ids σ.
Proof.
  intros Hkey t k1 k2 l1 l2 u1 u2 HU H1 H2 Hl1 Hl2 Hid.
  destruct (Hkey t k1 l1 HU H1) as (u1' & Hl1' & <-).
  destruct (Hkey t k2 l2 HU H2) as (u2' & Hl2' & <-).
  congruence.
Qed.

Lemma Mock_find_heap (id : Z) (σ : Mock.st) :
  ∃ r σ', Mock.FindUserByID id σ = Returns (r, σ') ∧ heap σ' = heap σ.
Proof.
  destruct (Mock.Err (this σ)) as [e|] eqn:HE.
  - rewrite (Mock_find_err σ id e HE). by eexists _, _.
  - rewrite (Mock_find_no_err σ id HE).
    destruct (Mock.index _ id) as [user []]; by eexists _, _.
Qed.

Context (S : SQLStore).

Lemma fresh_lookup_ne (h : gmap loc User) l u :
  h !! l = Some u → fresh (dom h) ≠ l.
Proof.
  intros Hl Heq. apply (is_fresh (dom h)). rewrite Heq.
  apply elem_of_dom. by eexists.
Qed.

Lemma Postgres_find_preserves (id : Z) (σ σ' : Postgres.st S) r :
  Postgres.FindUserByID S id σ = Returns (r, σ') →
  ∀ l u, heap σ !! l = Some u → heap σ' !! l = Some u.
Proof.
  unfold Postgres.FindUserByID. simpl.
  destruct (Postgres.DB S (this σ)) as [c|]; simpl; [|discriminate].
  destruct (QueryRow_Scan3 S c _ _) as [c' row].
  intros Hrun l u Hl. pose proof (fresh_lookup_ne _ _ _ Hl) as Hne.
  destruct row as [[[i n] e] [ce|] | e]; simpl in Hrun;
    try destruct (is_ _ ErrNoRows); injection Hrun as <- <-; simpl;
    by rewrite ?lookup_insert_ne.
Qed.

Lemma Postgres_save_preserves (p : pointer) (σ σ' : Postgres.st S) (e : error) :
  Postgres.SaveUser S p σ = Returns (e, σ') →
  ∀ l u, heap σ !! l = Some u → p ≠ Ref l → heap σ' !! l = Some u.
Proof.
  unfold Postgres.SaveUser.
  destruct p as [|l0]; simpl; [discriminate|].
  destruct (heap σ !! l0) as [u0|]; simpl; [|discriminate].
  destruct (Postgres.DB S (this σ)) as [c|]; simpl; [|discriminate].
  destruct (QueryRow_Scan1 S c _ _) as [c' row].
  intros Hrun l u Hl Hne.
  assert (l0 ≠ l) by congruence.
  destruct row as [v [ce|] | e0]; simpl in Hrun;
    injection Hrun as <- <-; simpl; by rewrite ?lookup_alter_ne.
Qed.

End IdFacts.

(** C7, as the claim is written, fails in two places.  On main.go's Alice
    and a store with a serial key: her first [SaveUser] persists her under
    the id 1; passing her, now persisted, to the relational [SaveUser]
    again succeeds and does not leave her id at 1 (the store inserts a
    second row and the method writes its new id, 2, into her).  And in the
    in-memory repository ids do not always remain unique: on a map whose
    stored ids are unique but whose one User is not filed under her own
    id, one [SaveUser] of another User with that id succeeds and leaves
    two entries holding the same id. *)
Lemma resave_changes_id :
  (Postgres.SaveUser SerialStore.store (Ref 1) Fixtures.main_state
     = Returns (None, Fixtures.persisted_state)
   ∧ ID <$> heap Fixtures.persisted_state !! 1%positive = Some 1
   ∧ ¬ (∀ e σ',
          Postgres.SaveUser SerialStore.store (Ref 1) Fixtures.persisted_state
            = Returns (e, σ') →
          ID <$> heap σ' !! 1%positive = Some 1))
  ∧ (unique_ids Fixtures.misfiled_state
     ∧ ∃ σ', Mock.SaveUser (Ref 2) Fixtures.misfiled_state = Returns (None, σ')
             ∧ ¬ unique_ids σ').
Proof.
  split.
  - split; [reflexivity|]. split; [reflexivity|].
    intros Hclaim.
    specialize (Hclaim None Fixtures.resaved_state eq_refl).
    vm_compute in Hclaim. discriminate Hclaim.
  - split.
    + intros t k1 k2 l1 l2 u1 u2 [= <-] H1 H2 _ _ _.
      apply lookup_singleton_Some in H1 as [<- _].
      apply lookup_singleton_Some in H2 as [<- _]. reflexivity.
    + eexists. split; [reflexivity|]. intros Huniq.
      specialize (Huniq _ 1 2 1%positive 2%positive Fixtures.jane Fixtures.janet
                    eq_refl eq_refl eq_refl eq_refl eq_refl eq_refl).
      discriminate Huniq.
Qed.

Lemma Mock_save_unique (p : pointer) (σ σ' : Mock.st) (e : error) :
  Mock.SaveUser p σ = Returns (e, σ') →
  unique_ids σ →
  (∀ l u, p = Ref l → heap σ !! l = Some u → id_free_elsewhere σ (ID u)) →
  unique_ids σ'.
Proof.
  intros [[_ ->] | (l & u & t & -> & Hl & HU & -> & ->)]%Mock_save_inv Huniq Hfree;
    [done|].
  specialize (Hfree l u eq_refl Hl).
  intros t' k1 k2 l1 l2 u1 u2 [= <-]. simpl.
  destruct (decide (ID u = k1)) as [<-|Hne1];
    destruct (decide (ID u = k2)) as [<-|Hne2];
    rewrite ?lookup_insert_eq, ?lookup_insert_ne by done; try done.
  - intros [= <-] H2 Hl1 Hl2 Hid. symmetry.
    apply (Hfree t k2 l2 u2 HU H2 Hl2). congruence.
  - intros H1 [= <-] Hl1 Hl2 Hid.
    apply (Hfree t k1 l1 u1 HU H1 Hl1). congruence.
  - intros H1 H2 Hl1 Hl2 Hid. by eapply (Huniq t k1 k2 l1 l2 u1 u2).
Qed.

(** C7 (amended): no lookup changes a User: the in-memory [FindUserByID]
    leaves the heap of Users as it was, and the relational one leaves
    every existing User as it was (it only adds the one it returns).  The
    in-memory [SaveUser] changes no User either; it keeps the map keyed
    by id, under which no two entries hold the same id, and it keeps
    stored ids unique whenever no User filed under another key carries
    the saved User's id.  The relational [SaveUser] leaves every User
    other than the one passed to it as it was; of the one passed to it,
    it never changes the name or the email, and it changes the id only
    when the scan wrote one, to the id the store returned for this
    insert, whatever id the User had: a scan that fails before writing
    leaves every User, the passed one included, as it was. *)
Theorem persisted_ids_stable (S : SQLStore) :
  (∀ id (σ : Mock.st),
     ∃ r σ', Mock.FindUserByID id σ = Returns (r, σ') ∧ heap σ' = heap σ)
  ∧ (∀ p (σ σ' : Mock.st) e,
       Mock.SaveUser p σ = Returns (e, σ') →
       heap σ' = heap σ ∧ (keyed_by_id σ → keyed_by_id σ' ∧ unique_ids σ'))
  ∧ (∀ id (σ σ' : Postgres.st S) r,
       Postgres.FindUserByID S id σ = Returns (r, σ') →
       ∀ l u, heap σ !! l = Some u → heap σ' !! l = Some u)
  ∧ (∀ p (σ σ' : Postgres.st S) e,
       Postgres.SaveUser S p σ = Returns (e, σ') →
       ∀ l u, heap σ !! l = Some u → p ≠ Ref l → heap σ' !! l = Some u)
  ∧ (∀ (σ : Postgres.st S) l u c c' v,
       heap σ !! l = Some u →
       Postgres.DB S (this σ) = Some c →
       QueryRow_Scan1 S c Postgres.insert_query [SqlText (Name u); SqlText (Email u)]
         = (c', Scanned v None) →
       ∃ σ', Postgres.SaveUser S (Ref l) σ = Returns (None, σ')
             ∧ heap σ' !! l = Some (mkUser v (Name u) (Email u)))
  ∧ (∀ (σ : Postgres.st S) l u c c' row,
       heap σ !! l = Some u →
       Postgres.DB S (this σ) = Some c →
       QueryRow_Scan1 S c Postgres.insert_query [SqlText (Name u); SqlText (Email u)]
         = (c', row) →
       ∃ σ', Postgres.SaveUser S (Ref l) σ = Returns (scan_error row, σ')
             ∧ heap σ' = match row with
                         | Scanned v _ => <[l := mkUser v (Name u) (Email u)]> (heap σ)
                         | ScanFailed _ => heap σ
                         end
             ∧ Name <$> heap σ' !! l = Some (Name u)
             ∧ Email <$> heap σ' !! l = Some (Email u)
             ∧ ID <$> heap σ' !! l = Some match row with
                                          | Scanned v _ => v
                                          | ScanFailed _ => ID u
                                          end)
  ∧ (∀ p (σ σ' : Mock.st) e,
       Mock.SaveUser p σ = Returns (e, σ') →
       unique_ids σ →
       (∀ l u, p = Ref l → heap σ !! l = Some u → id_free_elsewhere σ (ID u)) →
       unique_ids σ').
Proof.
  split; [|split; [|split; [|split; [|split; [|split]]]]].
  - apply Mock_find_heap.
  - intros p σ σ' e Hrun.
    destruct (Mock_save_keyed p σ σ' e Hrun) as [Hheap Hkey].
    split; [exact Hheap|]. intros Hk. split; [by apply Hkey|].
    apply keyed_unique. by apply Hkey.
  - apply Postgres_find_preserves.
  - apply Postgres_save_preserves.
  - intros σ l u c c' v Hl HDB HQ.
    rewrite (Postgres_save_unfold S σ l u c c' _ Hl HDB HQ).
    eexists. split; [reflexivity|]. simpl. apply lookup_insert_eq.
  - intros σ l u c c' row Hl HDB HQ.
    rewrite (Postgres_save_unfold S σ l u c c' row Hl HDB HQ).
    eexists. split; [reflexivity|]. simpl. split; [reflexivity|].
    destruct row as [v ce | e0]; rewrite ?lookup_insert_eq, ?Hl; done.
  - apply Mock_save_unique.
Qed.

Lemma keyed_two_users : keyed_by_id Fixtures.two_users_state.
Proof.
  intros t k l [= <-] Hk.
  apply lookup_singleton_Some in Hk as [<- [= <-]].
  exists Fixtures.john. split; reflexivity.
Qed.

Lemma persisted_ids_stable_witness :
  (∃ σ',
     Mock.SaveUser (Ref 2) Fixtures.two_users_state = Returns (None, σ')
     ∧ heap σ' = heap Fixtures.two_users_state
     ∧ keyed_by_id σ' ∧ unique_ids σ')
  ∧ (∃ σ',
       Postgres.SaveUser SerialStore.store (Ref 1) Fixtures.closed_state
         = Returns (Some SerialStore.errDBClosed, σ')
       ∧ heap σ' = heap Fixtures.closed_state
       ∧ Name <$> heap σ' !! 1%positive = Some "Alice"
       ∧ Email <$> heap σ' !! 1%positive = Some "alice@example.com"
       ∧ ID <$> heap σ' !! 1%positive = Some 0).
Proof.
  destruct (persisted_ids_stable SerialStore.store)
    as (_ & Hsave & _ & _ & _ & Hpassed & _).
  split.
  - eexists. split; [reflexivity|].
    destruct (Hsave (Ref 2) Fixtures.two_users_state _ None eq_refl) as [Hh Hk].
    split; [exact Hh|].
    destruct (Hk keyed_two_users) as [Hk1 Hk2].
    split; [exact Hk1 | exact Hk2].
  - exact (Hpassed Fixtures.closed_state 1%positive Fixtures.alice
             (SerialStore.mkDb [] 1 true) (SerialStore.mkDb [] 1 true)
             (ScanFailed SerialStore.errDBClosed) eq_refl eq_refl eq_refl).
Defined.

(** * Further properties of the code *)

(** ** The in-memory repository: lookups *)

(** With no injected error a lookup is decided by the key alone: the
    error is nil exactly when [id] is a key of the map, and then the
    pointer returned is the stored one (a stored nil pointer included) and
    the state is unchanged. *)
Theorem mock_find_by_key (σ : Mock.st) (t : gmap Z pointer) (id : Z) :
  Mock.Err (this σ) = None →
  Mock.Users (this σ) = Some t →
  ∃ p e σ',
    Mock.FindUserByID id σ = Returns ((p, e), σ')
    ∧ (e = None ↔ is_Some (t !! id))
    ∧ (∀ q, t !! id = Some q → p = q ∧ e = None ∧ σ' = σ).
Proof.
  intros HE HU. rewrite Mock_find_no_err by exact HE. rewrite HU. simpl.
  destruct (t !! id) as [q|] eqn:Hq.
  - exists q, None, σ. split; [reflexivity|]. split.
    + split; [by eexists | done].
    + intros q' [= <-]. done.
  - eexists _, _, _. split; [reflexivity|]. split.
    + split; [discriminate | by intros [? ?]].
    + discriminate.
Qed.

Lemma mock_find_by_key_witness :
  ∃ p e σ',
    Mock.FindUserByID 1 Fixtures.get_state = Returns ((p, e), σ')
    ∧ (e = None ↔ is_Some (({[ 1 := Ref 1 ]} : gmap Z pointer) !! 1))
    ∧ (∀ q, ({[ 1 := Ref 1 ]} : gmap Z pointer) !! 1 = Some q →
            p = q ∧ e = None ∧ σ' = Fixtures.get_state).
Proof.
  apply (mock_find_by_key Fixtures.get_state {[ 1 := Ref 1 ]} 1); reflexivity.
Defined.

(** [SaveUser] never stores a nil pointer, so a map without nil entries
    stays without them; and on such a map every lookup returns either a
    nil User with an error or a User with a nil error, never both nil. *)
Theorem mock_no_nil_entries :
  (∀ p (σ σ' : Mock.st) e,
     Mock.SaveUser p σ = Returns (e, σ') → no_nil_values σ → no_nil_values σ')
  ∧ (∀ id (σ σ' : Mock.st) p e,
       no_nil_values σ →
       Mock.FindUserByID id σ = Returns ((p, e), σ') →
       (p = NilPtr ↔ e ≠ None)).
Proof.
  split.
  - intros p σ σ' e [[_ ->] | (l & u & t & -> & Hl & HU & -> & ->)]%Mock_save_inv;
      [done|].
    intros Hnn t' k [= <-]. destruct (decide (ID u = k)) as [<-|Hne].
    + rewrite lookup_insert_eq. discriminate.
    + rewrite lookup_insert_ne by done. by eapply Hnn.
  - intros id σ σ' p e Hnn.
    destruct (Mock.Err (this σ)) as [E|] eqn:HE.
    + rewrite (Mock_find_err σ id E HE). intros [= <- <- _]. done.
    + rewrite (Mock_find_no_err σ id HE). unfold Mock.index.
      destruct (Mock.Users (this σ)) as [t|] eqn:HU.
      * destruct (t !! id) as [q|] eqn:Hq.
        -- intros [= <- <- _]. split; [|done].
           intros ->. by destruct (Hnn t id HU).
        -- intros [= <- <- _]. done.
      * intros [= <- <- _]. done.
Qed.

Lemma no_nil_two_users : no_nil_values Fixtures.two_users_state.
Proof.
  intros t k [= <-] Hk. apply lookup_singleton_Some in Hk as [_ [=]].
Qed.

Lemma mock_no_nil_entries_witness :
  ∃ σ', Mock.SaveUser (Ref 2) Fixtures.two_users_state = Returns (None, σ')
        ∧ no_nil_values σ'.
Proof.
  eexists. split; [reflexivity|].
  apply (proj1 mock_no_nil_entries (Ref 2) Fixtures.two_users_state _ None eq_refl).
  exact no_nil_two_users.
Defined.

(** Each miss makes a new error object: the errors of two consecutive
    failed lookups have the same type and text but are different objects,
    so neither [==] nor [errors.Is] relates them. *)
Theorem mock_not_found_is_no_sentinel (σ : Mock.st) (id1 id2 : Z) :
  Mock.Err (this σ) = None →
  absent (Mock.Users (this σ)) id1 →
  absent (Mock.Users (this σ)) id2 →
  ∃ e1 σ1 e2 σ2,
    Mock.FindUserByID id1 σ = Returns ((NilPtr, Some e1), σ1)
    ∧ Mock.FindUserByID id2 σ1 = Returns ((NilPtr, Some e2), σ2)
    ∧ kind e1 = kind e2
    ∧ same_error e1 e2 = false
    ∧ errors_Is (Some e1) (Some e2) = false
    ∧ errors_Is (Some e2) (Some e1) = false.
Proof.
  intros HE H1 H2.
  assert (Hmiss : ∀ id, absent (Mock.Users (this σ)) id →
            Mock.index (Mock.Users (this σ)) id = (NilPtr, false)).
  { intros id Habs. unfold absent, Mock.index in *.
    destruct (Mock.Users (this σ)); [by rewrite Habs | done]. }
  rewrite Mock_find_no_err by exact HE. rewrite (Hmiss id1 H1).
  eexists _, _, _, _. split; [reflexivity|].
  rewrite Mock_find_no_err by exact HE. simpl. rewrite (Hmiss id2 H2).
  split; [reflexivity|]. split; [reflexivity|].
  assert (Hne : Dyn (next_err σ) ≠ Dyn (Pos.succ (next_err σ))).
  { intros [= Heq]. lia. }
  unfold errors_Is, is_, same_error. simpl.
  rewrite (bool_decide_eq_false_2 _ Hne).
  rewrite (bool_decide_eq_false_2 (Dyn (Pos.succ (next_err σ)) = Dyn (next_err σ)))
    by congruence.
  done.
Qed.

Lemma mock_not_found_is_no_sentinel_witness :
  ∃ e1 σ1 e2 σ2,
    Mock.FindUserByID 2 Fixtures.get_state = Returns ((NilPtr, Some e1), σ1)
    ∧ Mock.FindUserByID 2 σ1 = Returns ((NilPtr, Some e2), σ2)
    ∧ kind e1 = kind e2
    ∧ same_error e1 e2 = false
    ∧ errors_Is (Some e1) (Some e2) = false
    ∧ errors_Is (Some e2) (Some e1) = false.
Proof.
  apply (mock_not_found_is_no_sentinel Fixtures.get_state 2 2); reflexivity.
Defined.

(** ** The in-memory repository: saves *)

(** A nil User makes [SaveUser] panic on [user.ID] when no error is
    injected, whatever the map is (the dereference comes before the
    assignment, so also on a nil map). *)
Theorem mock_save_nil_user (σ : Mock.st) :
  Mock.Err (this σ) = None →
  Mock.SaveUser NilPtr σ = Panics NilDereference.
Proof.
  intros HE. unfold Mock.SaveUser. rewrite HE.
  by rewrite bool_decide_eq_false_2 by congruence.
Qed.

Lemma mock_save_nil_user_witness :
  Mock.SaveUser NilPtr Fixtures.zero_state = Panics NilDereference
  ∧ Mock.SaveUser NilPtr Fixtures.get_state = Panics NilDereference.
Proof.
  split; [apply (mock_save_nil_user Fixtures.zero_state)
         | apply (mock_save_nil_user Fixtures.get_state)]; reflexivity.
Defined.

(** The last save under an id wins: after saving two Users with the same
    id one after the other, the lookup of that id returns the second, and
    the map is what saving the second alone would have made. *)
Theorem mock_last_save_wins (σ : Mock.st) (t : gmap Z pointer) (l1 l2 : loc)
    (u1 u2 : User) :
  Mock.Err (this σ) = None →
  Mock.Users (this σ) = Some t →
  heap σ !! l1 = Some u1 →
  heap σ !! l2 = Some u2 →
  ID u1 = ID u2 →
  ∃ σ1 σ2 σ3,
    Mock.SaveUser (Ref l1) σ = Returns (None, σ1)
    ∧ Mock.SaveUser (Ref l2) σ1 = Returns (None, σ2)
    ∧ Mock.FindUserByID (ID u1) σ2 = Returns ((Ref l2, None), σ3)
    ∧ Mock.SaveUser (Ref l2) σ = Returns (None, σ2).
Proof.
  intros HE HU H1 H2 Hid.
  eexists _, _, _. split; [by eapply Mock_save_no_err|].
  split; [by eapply Mock_save_no_err|].
  split.
  - rewrite Mock_find_no_err by reflexivity. simpl.
    rewrite Hid. by rewrite lookup_insert_eq.
  - rewrite (Mock_save_no_err σ t l2 u2 HE HU H2).
    rewrite Hid. by rewrite insert_insert_eq.
Qed.

Lemma mock_last_save_wins_witness :
  ∃ σ1 σ2 σ3,
    Mock.SaveUser (Ref 1) Fixtures.same_id_state = Returns (None, σ1)
    ∧ Mock.SaveUser (Ref 2) σ1 = Returns (None, σ2)
    ∧ Mock.FindUserByID 2 σ2 = Returns ((Ref 2, None), σ3)
    ∧ Mock.SaveUser (Ref 2) Fixtures.same_id_state = Returns (None, σ2).
Proof.
  apply (mock_last_save_wins Fixtures.same_id_state ∅ 1%positive 2%positive
           Fixtures.jane (mkUser 2 "Janet Doe" "janet.doe@example.com"));
    reflexivity.
Defined.

(** Saving the same User a second time changes nothing: the state after
    the second save is the state after the first. *)
Theorem mock_save_idempotent (σ : Mock.st) (t : gmap Z pointer) (l : loc) (u : User) :
  Mock.Err (this σ) = None →
  Mock.Users (this σ) = Some t →
  heap σ !! l = Some u →
  ∃ σ1,
    Mock.SaveUser (Ref l) σ = Returns (None, σ1)
    ∧ Mock.SaveUser (Ref l) σ1 = Returns (None, σ1).
Proof.
  intros HE HU Hl.
  eexists. split; [by eapply Mock_save_no_err|].
  erewrite Mock_save_no_err; [|reflexivity|reflexivity|exact Hl].
  unfold set_this. simpl. by rewrite insert_insert_eq.
Qed.

Lemma mock_save_idempotent_witness :
  ∃ σ1,
    Mock.SaveUser (Ref 1) Fixtures.create_state = Returns (None, σ1)
    ∧ Mock.SaveUser (Ref 1) σ1 = Returns (None, σ1).
Proof.
  apply (mock_save_idempotent Fixtures.create_state ∅ 1%positive Fixtures.jane);
    reflexivity.
Defined.

(** Saves of Users with different ids commute: either order ends in the
    same state. *)
Theorem mock_saves_commute (σ : Mock.st) (t : gmap Z pointer) (l1 l2 : loc)
    (u1 u2 : User) :
  Mock.Err (this σ) = None →
  Mock.Users (this σ) = Some t →
  heap σ !! l1 = Some u1 →
  heap σ !! l2 = Some u2 →
  ID u1 ≠ ID u2 →
  ∃ σa σb σ',
    Mock.SaveUser (Ref l1) σ = Returns (None, σa)
    ∧ Mock.SaveUser (Ref l2) σa = Returns (None, σ')
    ∧ Mock.SaveUser (Ref l2) σ = Returns (None, σb)
    ∧ Mock.SaveUser (Ref l1) σb = Returns (None, σ').
Proof.
  intros HE HU H1 H2 Hne.
  eexists _, _, _. split; [by eapply Mock_save_no_err|].
  split; [by eapply Mock_save_no_err|].
  split; [by eapply Mock_save_no_err|].
  erewrite Mock_save_no_err; [|reflexivity|reflexivity|exact H1].
  unfold set_this. simpl. by rewrite insert_insert_ne.
Qed.

Lemma mock_saves_commute_witness :
  ∃ σa σb σ',
    Mock.SaveUser (Ref 1) Fixtures.two_users_state = Returns (None, σa)
    ∧ Mock.SaveUser (Ref 2) σa = Returns (None, σ')
    ∧ Mock.SaveUser (Ref 2) Fixtures.two_users_state = Returns (None, σb)
    ∧ Mock.SaveUser (Ref 1) σb = Returns (None, σ').
Proof.
  apply (mock_saves_commute Fixtures.two_users_state {[ 1 := Ref 1 ]}
           1%positive 2%positive Fixtures.john Fixtures.jane);
    [reflexivity | reflexivity | reflexivity | reflexivity | discriminate].
Defined.



(** ** The relational repository *)

(** When the row scan succeeds, [FindUserByID] returns a nil error and a
    pointer to a new User object, one that did not exist before the call,
    holding the three columns the store delivered; no error object is
    made. *)
Theorem postgres_find_success (S : SQLStore) (σ : Postgres.st S) (id : Z)
    (c c' : conn S) (i : Z) (n e : string) :
  Postgres.DB S (this σ) = Some c →
  QueryRow_Scan3 S c Postgres.select_query [SqlInt id] = (c', Scanned (i, n, e) None) →
  ∃ l σ',
    Postgres.FindUserByID S id σ = Returns ((Ref l, None), σ')
    ∧ heap σ !! l = None
    ∧ heap σ' !! l = Some (mkUser i n e)
    ∧ Postgres.DB S (this σ') = Some c'
    ∧ next_err σ' = next_err σ.
Proof.
  intros HDB HQ. rewrite (Postgres_find_unfold S σ id c c' _ HDB HQ). simpl.
  eexists _, _. split; [reflexivity|]. simpl.
  split; [|split; [apply lookup_insert_eq | done]].
  apply not_elem_of_dom, is_fresh.
Qed.

Lemma postgres_find_success_witness :
  ∃ l σ',
    Postgres.FindUserByID SerialStore.store 1 Fixtures.persisted_state
      = Returns ((Ref l, None), σ')
    ∧ heap Fixtures.persisted_state !! l = None
    ∧ heap σ' !! l = Some (mkUser 1 "Alice" "alice@example.com")
    ∧ Postgres.DB SerialStore.store (this σ')
      = Some (SerialStore.mkDb [mkUser 1 "Alice" "alice@example.com"] 2 false)
    ∧ next_err σ' = next_err Fixtures.persisted_state.
Proof.
  exact (postgres_find_success SerialStore.store Fixtures.persisted_state 1
           (SerialStore.mkDb [mkUser 1 "Alice" "alice@example.com"] 2 false)
           (SerialStore.mkDb [mkUser 1 "Alice" "alice@example.com"] 2 false)
           1 "Alice" "alice@example.com" eq_refl eq_refl).
Defined.

(** Whatever the store answers, a call of [FindUserByID] that returns
    gives either a nil User with a non-nil error, or a nil error with a
    pointer to a User object that did not exist before the call: never
    both nil, never both set, and never a pointer to a User the caller
    already holds. *)
Theorem postgres_find_shape (S : SQLStore) (σ σ' : Postgres.st S) (id : Z)
    (p : pointer) (e : error) :
  Postgres.FindUserByID S id σ = Returns ((p, e), σ') →
  (p = NilPtr ∧ e ≠ None)
  ∨ (∃ l u, p = Ref l ∧ e = None ∧ heap σ !! l = None ∧ heap σ' !! l = Some u).
Proof.
  unfold Postgres.FindUserByID. simpl.
  destruct (Postgres.DB S (this σ)) as [c|]; simpl; [|discriminate].
  destruct (QueryRow_Scan3 S c _ _) as [c' row].
  destruct row as [[[i n] em] [ce|] | e0]; simpl;
    try destruct (is_ _ ErrNoRows); intros [= <- <- <-]; try (by left).
  right. eexists _, _. split; [reflexivity|]. split; [reflexivity|]. simpl.
  split; [apply not_elem_of_dom, is_fresh | apply lookup_insert_eq].
Qed.

Lemma postgres_find_shape_witness :
  ∃ p e σ',
    Postgres.FindUserByID SerialStore.store 1 Fixtures.persisted_state
      = Returns ((p, e), σ')
    ∧ ((p = NilPtr ∧ e ≠ None)
       ∨ (∃ l u, p = Ref l ∧ e = None
                 ∧ heap Fixtures.persisted_state !! l = None
                 ∧ heap σ' !! l = Some u)).
Proof.
  eexists _, _, _. split; [reflexivity|].
  apply (postgres_find_shape SerialStore.store Fixtures.persisted_state _ 1).
  reflexivity.
Defined.

(** The NotFound error of the relational repository does not carry
    [sql.ErrNoRows]: when the scan ends with an error that is
    [sql.ErrNoRows], the error returned is a new object for which
    [errors.Is(err, sql.ErrNoRows)] is false. *)
Theorem postgres_not_found_drops_sentinel (S : SQLStore) (σ : Postgres.st S)
    (id : Z) (c c' : conn S) (row : scan (Z * string * string)) (e : error_value) :
  Postgres.DB S (this σ) = Some c →
  QueryRow_Scan3 S c Postgres.select_query [SqlInt id] = (c', row) →
  scan_error row = Some e →
  errors_Is (Some e) (Some ErrNoRows) = true →
  ∃ e' σ',
    Postgres.FindUserByID S id σ = Returns ((NilPtr, Some e'), σ')
    ∧ NotFound e'
    ∧ errors_Is (Some e') (Some ErrNoRows) = false.
Proof.
  intros HDB HQ Herr His.
  rewrite (Postgres_find_unfold S σ id c c' row HDB HQ). simpl. rewrite Herr.
  simpl in His. rewrite His.
  eexists _, _. split; [reflexivity|]. split; reflexivity.
Qed.

Lemma postgres_not_found_drops_sentinel_witness :
  ∃ e' σ',
    Postgres.FindUserByID SerialStore.store 5 Fixtures.main_state
      = Returns ((NilPtr, Some e'), σ')
    ∧ NotFound e'
    ∧ errors_Is (Some e') (Some ErrNoRows) = false.
Proof.
  exact (postgres_not_found_drops_sentinel SerialStore.store Fixtures.main_state 5
           (SerialStore.mkDb [] 1 false) (SerialStore.mkDb [] 1 false)
           (ScanFailed ErrNoRows) ErrNoRows eq_refl eq_refl eq_refl eq_refl).
Defined.

(** [SaveUser] never sends the User's own id to the store: two Users
    that differ only in their ID field cause the same insert, so the call
    returns the same error and leaves the same connection state, and when
    the scan succeeds both end up as the same User. *)
Theorem postgres_save_ignores_id (S : SQLStore) (σ : Postgres.st S) (l : loc)
    (u u' : User) (c : conn S) :
  heap σ !! l = Some u →
  Postgres.DB S (this σ) = Some c →
  Name u' = Name u →
  Email u' = Email u →
  ∃ e σ1 σ2,
    Postgres.SaveUser S (Ref l) σ = Returns (e, σ1)
    ∧ Postgres.SaveUser S (Ref l) (set_heap σ (<[l := u']> (heap σ))) = Returns (e, σ2)
    ∧ this σ1 = this σ2
    ∧ (e = None → σ1 = σ2).
Proof.
  intros Hl HDB Hn He.
  destruct (QueryRow_Scan1 S c Postgres.insert_query
              [SqlText (Name u); SqlText (Email u)]) as [c' row] eqn:HQ.
  rewrite (Postgres_save_unfold S σ l u c c' row Hl HDB HQ).
  rewrite (Postgres_save_unfold S (set_heap σ (<[l := u']> (heap σ))) l u' c c' row);
    [| apply lookup_insert_eq | exact HDB | by rewrite Hn, He].
  eexists _, _, _. split; [reflexivity|]. split; [reflexivity|].
  split; [reflexivity|].
  destruct row as [v [ce|] | e0]; simpl; try discriminate.
  intros _. by rewrite insert_insert_eq, Hn, He.
Qed.

Lemma postgres_save_ignores_id_witness :
  ∃ e σ1 σ2,
    Postgres.SaveUser SerialStore.store (Ref 1) Fixtures.main_state = Returns (e, σ1)
    ∧ Postgres.SaveUser SerialStore.store (Ref 1)
        (set_heap Fixtures.main_state
           (<[1%positive := mkUser 77 "Alice" "alice@example.com"]>
              (heap Fixtures.main_state)))
      = Returns (e, σ2)
    ∧ this σ1 = this σ2
    ∧ (e = None → σ1 = σ2).
Proof.
  exact (postgres_save_ignores_id SerialStore.store Fixtures.main_state 1%positive
           Fixtures.alice (mkUser 77 "Alice" "alice@example.com")
           (SerialStore.mkDb [] 1 false) eq_refl eq_refl eq_refl eq_refl).
Defined.

(** On a nil [DB] the relational repository panics: [FindUserByID]
    with a nil dereference for every id, [SaveUser] for every argument,
    with a nil dereference for every User; and a nil User makes
    [SaveUser] panic with a nil dereference in every state, whatever the
    connection is. *)
Theorem postgres_nil_handle_panics (S : SQLStore) (σ : Postgres.st S) :
  Postgres.DB S (this σ) = None →
  (∀ id, Postgres.FindUserByID S id σ = Panics NilDereference)
  ∧ (∀ user, ∃ p, Postgres.SaveUser S user σ = Panics p)
  ∧ (∀ l u, heap σ !! l = Some u →
       Postgres.SaveUser S (Ref l) σ = Panics NilDereference)
  ∧ (∀ σ0 : Postgres.st S, Postgres.SaveUser S NilPtr σ0 = Panics NilDereference).
Proof.
  intros HDB. split; [|split; [|split]].
  - intros id. unfold Postgres.FindUserByID. simpl. by rewrite HDB.
  - intros [|l]; unfold Postgres.SaveUser; simpl; [by eexists|].
    destruct (heap σ !! l); simpl; [rewrite HDB|]; by eexists.
  - intros l u Hl. unfold Postgres.SaveUser. simpl. rewrite Hl. simpl.
    by rewrite HDB.
  - reflexivity.
Qed.

Lemma postgres_nil_handle_panics_witness :
  Postgres.FindUserByID SerialStore.store 1 Fixtures.no_db_state
    = Panics NilDereference
  ∧ Postgres.SaveUser SerialStore.store (Ref 1) Fixtures.no_db_state
    = Panics NilDereference
  ∧ Postgres.SaveUser SerialStore.store NilPtr Fixtures.main_state
    = Panics NilDereference.
Proof.
  destruct (postgres_nil_handle_panics SerialStore.store Fixtures.no_db_state eq_refl)
    as (Hfind & _ & Hsave & Hnil).
  split; [apply Hfind|].
  split; [apply (Hsave 1%positive Fixtures.alice); reflexivity | apply Hnil].
Defined.

(** ** The program *)

Section MainFacts.
Context (S : SQLStore).
Context (sql_Open : string → string → conn S + error_value).
Context (Close : conn S → conn S).

(** The state in which [main] calls [SaveUser], and the new User. *)
Lemma main_unfold (c : conn S) :
  sql_Open "postgres" Main.connStr = inl c →
  Main.main S sql_Open Close =
    let l := fresh (dom (∅ : gmap loc User)) in
    let σ1 : Postgres.st S :=
      mkState (<[l := mkUser 0 "Alice" "alice@example.com"]> (<[l := zeroUser]> ∅))
              1%positive (Postgres.mkPostgres S (Some c)) in
    match Postgres.SaveUser S (Ref l) σ1 with
    | Panics p => Main.Panicked p
    | Returns (Some err, σ2) => Main.Fatal [] err (Postgres.DB S (this σ2))
    | Returns (None, σ2) =>
        match load (Ref l) σ2 with
        | Panics p => Main.Panicked p
        | Returns nu =>
            match Postgres.FindUserByID S (ID nu) σ2 with
            | Panics p => Main.Panicked p
            | Returns ((_, Some err), σ3) =>
                Main.Fatal [Main.Printf_new_user_id (ID nu)] err (Postgres.DB S (this σ3))
            | Returns ((user, None), σ3) =>
                match load user σ3 with
                | Panics p => Main.Panicked p
                | Returns fu =>
                    match Postgres.DB S (this σ3) with
                    | Some c3 =>
                        Main.Returned [Main.Printf_new_user_id (ID nu);
                                       Main.Printf_user_found (Name fu) (Email fu)]
                                      (Close c3)
                    | None => Main.Panicked NilDereference
                    end
                end
            end
        end
    end.
Proof. intros HO. unfold Main.main. rewrite HO. reflexivity. Qed.

End MainFacts.

Lemma main_success_run (S : SQLStore)
    (sql_Open : string → string → conn S + error_value) (Close : conn S → conn S)
    (c c1 c2 : conn S) (v i : Z) (n e : string) :
  sql_Open "postgres" Main.connStr = inl c →
  QueryRow_Scan1 S c Postgres.insert_query
    [SqlText "Alice"; SqlText "alice@example.com"] = (c1, Scanned v None) →
  QueryRow_Scan3 S c1 Postgres.select_query [SqlInt v] = (c2, Scanned (i, n, e) None) →
  Main.main S sql_Open Close
  = Main.Returned [Main.Printf_new_user_id v; Main.Printf_user_found n e] (Close c2).
Proof.
  intros HO HI HS. rewrite (main_unfold S sql_Open Close c HO). cbv zeta.
  erewrite (Postgres_save_unfold S _ _ (mkUser 0 "Alice" "alice@example.com") c c1);
    [| apply lookup_insert_eq | reflexivity | exact HI].
  simpl. rewrite lookup_insert_eq. simpl.
  erewrite (Postgres_find_unfold S _ v c1 c2); [| reflexivity | exact HS].
  simpl. rewrite lookup_insert_eq. reflexivity.
Qed.

(** When the store opens, the insert scans an id [v] and the select of
    [v] scans a row, [main] prints the id line with [v] and then the
    found line with the name and email of the row the store delivered,
    closes the connection and returns: the lookup is made with the id the
    store generated. *)
Theorem main_success (S : SQLStore)
    (sql_Open : string → string → conn S + error_value) (Close : conn S → conn S)
    (c c1 c2 : conn S) (v i : Z) (n e : string) :
  sql_Open "postgres" Main.connStr = inl c →
  QueryRow_Scan1 S c Postgres.insert_query
    [SqlText "Alice"; SqlText "alice@example.com"] = (c1, Scanned v None) →
  QueryRow_Scan3 S c1 Postgres.select_query [SqlInt v] = (c2, Scanned (i, n, e) None) →
  Main.main S sql_Open Close
  = Main.Returned [Main.Printf_new_user_id v; Main.Printf_user_found n e] (Close c2).
Proof. apply main_success_run. Qed.

Lemma main_success_witness :
  Main.main SerialStore.store Fixtures.open_empty Fixtures.close
  = @Main.Returned SerialStore.store
      [Main.Printf_new_user_id 1;
       Main.Printf_user_found "Alice" "alice@example.com"]
      (SerialStore.mkDb [mkUser 1 "Alice" "alice@example.com"] 2 true).
Proof.
  exact (main_success SerialStore.store Fixtures.open_empty Fixtures.close
           (SerialStore.mkDb [] 1 false)
           (SerialStore.mkDb [mkUser 1 "Alice" "alice@example.com"] 2 false)
           (SerialStore.mkDb [mkUser 1 "Alice" "alice@example.com"] 2 false)
           1 1 "Alice" "alice@example.com" eq_refl eq_refl eq_refl).
Defined.

Lemma main_save_fails_run (S : SQLStore)
    (sql_Open : string → string → conn S + error_value) (Close : conn S → conn S)
    (c c1 : conn S) (row : scan Z) (err : error_value) :
  sql_Open "postgres" Main.connStr = inl c →
  QueryRow_Scan1 S c Postgres.insert_query
    [SqlText "Alice"; SqlText "alice@example.com"] = (c1, row) →
  scan_error row = Some err →
  Main.main S sql_Open Close = Main.Fatal [] err (Some c1).
Proof.
  intros HO HI Herr. rewrite (main_unfold S sql_Open Close c HO). cbv zeta.
  erewrite (Postgres_save_unfold S _ _ (mkUser 0 "Alice" "alice@example.com") c c1);
    [| apply lookup_insert_eq | reflexivity | exact HI].
  rewrite Herr. reflexivity.
Qed.

(** When the insert's scan reports an error, [main] ends in [log.Fatal]
    with that very error, having printed nothing; the connection is as
    the insert left it: no lookup has been issued and the deferred
    [Close] has not run. *)
Theorem main_save_fails (S : SQLStore)
    (sql_Open : string → string → conn S + error_value) (Close : conn S → conn S)
    (c c1 : conn S) (row : scan Z) (err : error_value) :
  sql_Open "postgres" Main.connStr = inl c →
  QueryRow_Scan1 S c Postgres.insert_query
    [SqlText "Alice"; SqlText "alice@example.com"] = (c1, row) →
  scan_error row = Some err →
  Main.main S sql_Open Close = Main.Fatal [] err (Some c1).
Proof. apply main_save_fails_run. Qed.

Lemma main_save_fails_witness :
  Main.main SerialStore.store Fixtures.open_closed Fixtures.close
  = @Main.Fatal SerialStore.store [] SerialStore.errDBClosed
      (Some (SerialStore.mkDb [] 1 true)).
Proof.
  exact (main_save_fails SerialStore.store Fixtures.open_closed Fixtures.close
           (SerialStore.mkDb [] 1 true) (SerialStore.mkDb [] 1 true)
           (ScanFailed SerialStore.errDBClosed) SerialStore.errDBClosed
           eq_refl eq_refl eq_refl).
Defined.

Lemma main_find_fails_run (S : SQLStore)
    (sql_Open : string → string → conn S + error_value) (Close : conn S → conn S)
    (c c1 c2 : conn S) (v : Z) (row : scan (Z * string * string))
    (err : error_value) :
  sql_Open "postgres" Main.connStr = inl c →
  QueryRow_Scan1 S c Postgres.insert_query
    [SqlText "Alice"; SqlText "alice@example.com"] = (c1, Scanned v None) →
  QueryRow_Scan3 S c1 Postgres.select_query [SqlInt v] = (c2, row) →
  scan_error row = Some err →
  ∃ e',
    Main.main S sql_Open Close = Main.Fatal [Main.Printf_new_user_id v] e' (Some c2)
    ∧ if errors_Is (Some err) (Some ErrNoRows) then NotFound e' else e' = err.
Proof.
  intros HO HI HS Herr. rewrite (main_unfold S sql_Open Close c HO). cbv zeta.
  erewrite (Postgres_save_unfold S _ _ (mkUser 0 "Alice" "alice@example.com") c c1);
    [| apply lookup_insert_eq | reflexivity | exact HI].
  simpl. rewrite lookup_insert_eq. simpl.
  erewrite (Postgres_find_unfold S _ v c1 c2); [| reflexivity | exact HS].
  simpl. rewrite Herr.
  destruct (is_ err ErrNoRows); eexists; split; reflexivity.
Qed.

(** When the insert succeeds with id [v] and the scan of the lookup
    reports an error, [main] has printed the id line only and ends in
    [log.Fatal], without closing the connection: with a NotFound error
    when the scan's error is [sql.ErrNoRows], with the scan's own error
    otherwise. *)
Theorem main_find_fails (S : SQLStore)
    (sql_Open : string → string → conn S + error_value) (Close : conn S → conn S)
    (c c1 c2 : conn S) (v : Z) (row : scan (Z * string * string))
    (err : error_value) :
  sql_Open "postgres" Main.connStr = inl c →
  QueryRow_Scan1 S c Postgres.insert_query
    [SqlText "Alice"; SqlText "alice@example.com"] = (c1, Scanned v None) →
  QueryRow_Scan3 S c1 Postgres.select_query [SqlInt v] = (c2, row) →
  scan_error row = Some err →
  ∃ e',
    Main.main S sql_Open Close = Main.Fatal [Main.Printf_new_user_id v] e' (Some c2)
    ∧ if errors_Is (Some err) (Some ErrNoRows) then NotFound e' else e' = err.
Proof. apply main_find_fails_run. Qed.

(** [main] never panics, whatever [sql.Open], the store and [Close] do:
    it returns or ends in [log.Fatal]; and when [sql.Open] fails it ends
    in [log.Fatal] with that error before anything else happens. *)
Theorem main_never_panics (S : SQLStore)
    (sql_Open : string → string → conn S + error_value) (Close : conn S → conn S) :
  (∀ p, Main.main S sql_Open Close ≠ Main.Panicked p)
  ∧ (∀ err, sql_Open "postgres" Main.connStr = inr err →
            Main.main S sql_Open Close = Main.Fatal [] err None).
Proof.
  split.
  - intros p.
    destruct (sql_Open "postgres" Main.connStr) as [c|err] eqn:HO;
      [| unfold Main.main; by rewrite HO].
    destruct (QueryRow_Scan1 S c Postgres.insert_query
                [SqlText "Alice"; SqlText "alice@example.com"]) as [c1 row] eqn:HI.
    destruct (scan_error row) as [err|] eqn:Herr.
    { by rewrite (main_save_fails_run S sql_Open Close c c1 row err HO HI Herr). }
    destruct row as [v [ce|] | e0]; try discriminate Herr.
    destruct (QueryRow_Scan3 S c1 Postgres.select_query [SqlInt v])
      as [c2 row3] eqn:HS.
    destruct (scan_error row3) as [err|] eqn:Herr3.
    { destruct (main_find_fails_run S sql_Open Close c c1 c2 v row3 err HO HI HS Herr3)
        as (e' & -> & _). done. }
    destruct row3 as [[[i n] e] [ce|] | e0]; try discriminate Herr3.
    by rewrite (main_success_run S sql_Open Close c c1 c2 v i n e HO HI HS).
  - intros err HO. unfold Main.main. by rewrite HO.
Qed.

Lemma main_find_fails_witness :
  ∃ e',
    Main.main Fixtures.forgetful_store Fixtures.open_unit (λ c, c)
    = @Main.Fatal Fixtures.forgetful_store [Main.Printf_new_user_id 7] e' (Some tt)
    ∧ NotFound e'.
Proof.
  exact (main_find_fails Fixtures.forgetful_store Fixtures.open_unit (λ c, c)
           tt tt tt 7 (ScanFailed ErrNoRows) ErrNoRows
           eq_refl eq_refl eq_refl eq_refl).
Defined.

Lemma main_never_panics_witness :
  Main.main SerialStore.store Fixtures.open_fails Fixtures.close
  = @Main.Fatal SerialStore.store []
      (driverError (Static "sql.unknown_driver") "sql: unknown driver") None.
Proof.
  apply (proj2 (main_never_panics SerialStore.store Fixtures.open_fails Fixtures.close)).
  reflexivity.
Defined.

(** The two lines [main] prints, on concrete values. *)
Example Printf_lines :
  Main.Printf_new_user_id 42 = "New user ID: 42" +:+ Main.newline
  ∧ Main.Printf_new_user_id (-5) = "New user ID: -5" +:+ Main.newline
  ∧ Main.Printf_user_found "Alice" "alice@example.com"
    = "User found: Alice, alice@example.com" +:+ Main.newline.
Proof. repeat split; reflexivity. Qed.
